(** * JOKKO AI: the chat endpoint of [App.py]

    A shallow embedding of the request handlers of [src/App.py] and the
    properties of the observable request/response contract.

    Conventions of the embedding:
    - a Python [str] is the list of its Unicode code points;
    - a [dict] used as a lookup table is a [gmap], and [d[k]] on a missing
      key raises [KeyError];
    - a [float] is a binary64 value (the kernel's primitive floats), so the
      literal [0.9] denotes the same double as in Python;
    - exceptions are threaded through a small error monad. *)

From Stdlib Require Import NArith List Strings.String Strings.Ascii.
From Stdlib Require Import Floats.PrimFloat.
From stdpp Require Import base option list gmap fin_maps.

Set Warnings "-inexact-float".
Local Open Scope N_scope.

(** ** Strings *)

(** A Python string: a sequence of code points. *)
Abbreviation str := (list N).

(** The source file is UTF-8: a string literal denotes the code points its
    bytes decode to.  [utf8_decode bs acc need] reads the bytes [bs], where
    [need] continuation bytes are still missing from the code point whose
    high bits are [acc]. *)
Fixpoint utf8_decode (bs : list N) (acc : N) (need : nat) : str :=
  match bs with
  | [] => []
  | b :: bs' =>
      match need with
      | O =>
          if b <? 128 then b :: utf8_decode bs' 0 O
          else if b <? 224 then utf8_decode bs' (N.land b 31) 1%nat
          else if b <? 240 then utf8_decode bs' (N.land b 15) 2%nat
          else utf8_decode bs' (N.land b 7) 3%nat
      | S n =>
          let acc' := acc * 64 + N.land b 63 in
          match n with
          | O => acc' :: utf8_decode bs' 0 O
          | S _ => utf8_decode bs' acc' n
          end
      end
  end.

(** A literal of the source, as a [str]. *)
Definition u (s : string) : str :=
  utf8_decode (List.map N_of_ascii (list_ascii_of_string s)) 0 O.

(** [str.lower()] on one ASCII code point: [A-Z] to [a-z]. *)
Definition ascii_lower (c : N) : N :=
  if (65 <=? c) && (c <=? 90) then c + 32 else c.

Definition isascii (s : str) : bool := forallb (fun c => c <? 128) s.

Section Lower.

(** The interpreter's case mapping for text that is not pure ASCII (the
    Unicode character database of the running Python): not part of this
    repository, kept abstract. *)
Variable unicode_lower : str -> str.

(** [s.lower()]. *)
Definition lower (s : str) : str :=
  if isascii s then List.map ascii_lower s else unicode_lower s.

End Lower.

(** [k in s] for two strings: [k] occurs in [s] as a contiguous run. *)
Fixpoint startswith (s k : str) {struct k} : bool :=
  match k, s with
  | [], _ => true
  | _ :: _, [] => false
  | a :: k', b :: s' => (a =? b) && startswith s' k'
  end.

Fixpoint contains (k s : str) : bool :=
  startswith s k ||
  match s with
  | [] => false
  | _ :: s' => contains k s'
  end.

(** [any(k in s for k in ks)]. *)
Definition any_in (ks : list str) (s : str) : bool :=
  existsb (fun k => contains k s) ks.

(** ** Exceptions *)

Inductive outcome (E A : Type) : Type :=
| Return (a : A)
| Raise (e : E).
Arguments Return {E A} a.
Arguments Raise {E A} e.

#[global] Instance outcome_ret {E} : MRet (outcome E) := fun A a => Return a.

#[global] Instance outcome_bind {E} : MBind (outcome E) := fun A B f m =>
  match m with
  | Return a => f a
  | Raise e => Raise e
  end.

(** The exceptions the handler body can raise: a failed table lookup. *)
Inductive Exception : Type :=
| KeyError (key : str).

(** [str(e)].  For a [KeyError] it is the [repr] of the key: the key between
    single quotes (the keys looked up are plain identifiers, with nothing to
    escape). *)
Definition str_of (e : Exception) : str :=
  match e with
  | KeyError key => u "'" ++ key ++ u "'"
  end.

(** [k in d] and [d[k]] for a dict. *)
Definition has_key {V} (d : gmap str V) (k : str) : bool :=
  match d !! k with
  | Some _ => true
  | None => false
  end.

Definition getitem {V} (d : gmap str V) (k : str) : outcome Exception V :=
  match d !! k with
  | Some v => Return v
  | None => Raise (KeyError k)
  end.

(** ** Data model *)

(** [ChatRequest]: [language] defaults to ["it"] and [user_id] to [None]
    when the request leaves them out. *)
Module ChatRequest.
Record t : Type := mk {
  message : str;
  language : str;
  user_id : option str
}.
End ChatRequest.

Module ChatResponse.
Record t : Type := mk {
  response : str;
  language : str;
  sources : list (gmap str str);
  category : option str;
  confidence : float
}.
End ChatResponse.

Record HTTPException : Type := {
  status_code : N;
  detail : str
}.

(** A value of a JSON payload of the metadata endpoints. *)
Inductive value : Type :=
| VStr (s : str)
| VDict (d : gmap str str).

(** ** Static tables *)

Definition SUPPORTED_LANGUAGES : gmap str str :=
  {[ u "it" := u "Italiano"; u "fr" := u "Français"; u "en" := u "English";
     u "wo" := u "Wolof"; u "bm" := u "Bambara"; u "ha" := u "Hausa";
     u "am" := u "Amarico"; u "ti" := u "Tigrinya"; u "lg" := u "Lingala";
     u "ff" := u "Pulaar"; u "so" := u "Soninke" ]}.

Definition SAMPLE_RESPONSES : gmap str (gmap str str) :=
  {[ u "it" :=
       {[ u "permesso_soggiorno" := u "Per il permesso di soggiorno devi recarti in Questura con passaporto, foto tessera, marca da bollo da €16...";
          u "lavoro" := u "Per cercare lavoro in Italia puoi usare i centri per l'impiego, InfoJobs, agenzie interinali...";
          u "casa" := u "Per trovare casa puoi usare Immobiliare.it, Subito, Idealista o contattare associazioni locali...";
          u "sanita" := u "Il SSN garantisce cure gratuite: chiedi la tessera sanitaria alla ASL e scegli un medico di base...";
          u "diritti" := u "Hai diritto a: assistenza legale gratuita, protezione dalla discriminazione, accesso alla sanità e istruzione...";
          u "default" := u "Ciao! Sono JOKKO AI. Posso aiutarti su: permesso di soggiorno, lavoro, casa, sanità, diritti. Dimmi pure!" ]};
     u "en" :=
       {[ u "permesso_soggiorno" := u "For residence permit, go to Questura with passport, ID photo, €16 tax stamp...";
          u "lavoro" := u "To find work in Italy: register at job centers, use InfoJobs, temp agencies...";
          u "casa" := u "To find a house, use Immobiliare.it, Idealista, or contact local associations...";
          u "sanita" := u "Italy provides free healthcare: get your health card at ASL and choose a GP...";
          u "diritti" := u "You have the right to free legal aid, education, work and healthcare...";
          u "default" := u "Hello! I’m JOKKO AI. I can help with: residence permit, work, housing, healthcare, rights." ]};
     u "fr" :=
       {[ u "permesso_soggiorno" := u "Pour le titre de séjour, allez à la Questura avec passeport, photos, timbre fiscal de 16€...";
          u "lavoro" := u "Pour trouver du travail : centres d'emploi, InfoJobs, agences intérimaires...";
          u "casa" := u "Utilisez Immobiliare.it, Idealista ou contactez les associations locales...";
          u "sanita" := u "Le SSN fournit des soins gratuits : demandez votre carte sanitaire à l'ASL...";
          u "diritti" := u "Vous avez droit à : aide juridique, santé, travail régulier, éducation...";
          u "default" := u "Salut ! Je suis JOKKO AI. Je peux vous aider avec : séjour, travail, logement, santé, droits." ]} ]}.

(** ** Handlers *)

(** [GET /api/health], over the dict [languages] bound to the global
    [SUPPORTED_LANGUAGES] when the handler runs. *)
Definition health_with (languages : gmap str str) : gmap str value :=
  {[ u "status" := VStr (u "ok");
     u "message" := VStr (u "JOKKO AI funzionante");
     u "languages" := VDict languages ]}.

Section Chat.

Variable unicode_lower : str -> str.

(** The dict bound to the global [SAMPLE_RESPONSES] when the handler runs. *)
Variable responses : gmap str (gmap str str).

(** The body of the [try] block of [chat]. *)
Definition chat_try (chat_request : ChatRequest.t)
  : outcome Exception ChatResponse.t :=
  let message := lower unicode_lower (ChatRequest.message chat_request) in
  let language :=
    if has_key responses (ChatRequest.language chat_request)
    then ChatRequest.language chat_request else u "it" in
  answers ← getitem responses language;
  '(response, category, confidence) ←
    (if any_in [u "permesso"; u "soggiorno"; u "séjour"; u "permit"] message then
       response ← getitem answers (u "permesso_soggiorno");
       mret (response, u "permesso_soggiorno", 0.9%float)
     else if any_in [u "lavoro"; u "job"; u "work"; u "emploi"] message then
       response ← getitem answers (u "lavoro");
       mret (response, u "lavoro", 0.85%float)
     else if any_in [u "casa"; u "house"; u "logement"; u "rent"] message then
       response ← getitem answers (u "casa");
       mret (response, u "casa", 0.85%float)
     else if any_in [u "salute"; u "health"; u "santé"; u "doctor"] message then
       response ← getitem answers (u "sanita");
       mret (response, u "sanita", 0.85%float)
     else if any_in [u "diritti"; u "rights"; u "droits"; u "legal"] message then
       response ← getitem answers (u "diritti");
       mret (response, u "diritti", 0.85%float)
     else
       response ← getitem answers (u "default");
       mret (response, u "generale", 0.7%float));
  mret {| ChatResponse.response := response;
          ChatResponse.language := language;
          ChatResponse.sources :=
            [ {[ u "title" := u "JOKKO KB"; u "url" := u "https://ym.vercel.app" ]};
              {[ u "title" := u "Ministero Interno"; u "url" := u "https://www.interno.gov.it" ]} ];
          ChatResponse.category := Some category;
          ChatResponse.confidence := confidence |}.

(** The [except Exception as e] clause: whatever the body raised leaves the
    handler as [HTTPException(status_code=500, detail=f"Errore: {str(e)}")]. *)
Definition except_Exception {A} (body : outcome Exception A)
  : outcome HTTPException A :=
  match body with
  | Return a => Return a
  | Raise e =>
      Raise {| status_code := 500; detail := u "Errore: " ++ str_of e |}
  end.

(** [POST /api/chat], over the table [responses]. *)
Definition chat_with (chat_request : ChatRequest.t)
  : outcome HTTPException ChatResponse.t :=
  except_Exception (chat_try chat_request).

End Chat.

(** The handlers of the running application: the globals are the tables
    the module defines. *)
Definition health : gmap str value := health_with SUPPORTED_LANGUAGES.

Definition chat (unicode_lower : str -> str) (chat_request : ChatRequest.t)
  : outcome HTTPException ChatResponse.t :=
  chat_with unicode_lower SAMPLE_RESPONSES chat_request.

(** ** The application as a sequence of requests

    The module's globals are the only state that outlives a request.  A
    handler receives them and hands them on; none assigns or mutates one.
    ([GET /] is left out: it only reads the same two tables.) *)
Module Globals.
Record t : Type := mk {
  SUPPORTED_LANGUAGES : gmap str str;
  SAMPLE_RESPONSES : gmap str (gmap str str)
}.
End Globals.

(** The globals once the module is loaded. *)
Definition module_globals : Globals.t :=
  {| Globals.SUPPORTED_LANGUAGES := SUPPORTED_LANGUAGES;
     Globals.SAMPLE_RESPONSES := SAMPLE_RESPONSES |}.

Inductive Request : Type :=
| GET_health
| POST_chat (body : ChatRequest.t).

Inductive Reply : Type :=
| Health (payload : gmap str value)
| Chat (result : outcome HTTPException ChatResponse.t).

Definition serve (unicode_lower : str -> str) (g : Globals.t) (rq : Request)
  : Globals.t * Reply :=
  match rq with
  | GET_health => (g, Health (health_with (Globals.SUPPORTED_LANGUAGES g)))
  | POST_chat body =>
      (g, Chat (chat_with unicode_lower (Globals.SAMPLE_RESPONSES g) body))
  end.

(** The globals after serving [rqs] in order. *)
Fixpoint serve_all (unicode_lower : str -> str) (g : Globals.t) (rqs : list Request)
  : Globals.t :=
  match rqs with
  | [] => g
  | rq :: rqs' => serve_all unicode_lower (serve unicode_lower g rq).1 rqs'
  end.

(** ** The classification as a table

    The [if]/[elif] chain of [chat] read as data: the keyword lists in the
    order they are tested, each with the table key of its branch (which is
    also its category label) and its confidence. *)
Definition keyword_sets : list (str * list str * float) :=
  [ (u "permesso_soggiorno", [u "permesso"; u "soggiorno"; u "séjour"; u "permit"], 0.9%float);
    (u "lavoro", [u "lavoro"; u "job"; u "work"; u "emploi"], 0.85%float);
    (u "casa", [u "casa"; u "house"; u "logement"; u "rent"], 0.85%float);
    (u "sanita", [u "salute"; u "health"; u "santé"; u "doctor"], 0.85%float);
    (u "diritti", [u "diritti"; u "rights"; u "droits"; u "legal"], 0.85%float) ].

(** The first rule one of whose keywords occurs in [message]. *)
Fixpoint first_match (rules : list (str * list str * float)) (message : str)
  : option (str * float) :=
  match rules with
  | [] => None
  | (c, ks, conf) :: rules' =>
      if any_in ks message then Some (c, conf) else first_match rules' message
  end.

(** Table key, category label and confidence selected for a lower-cased
    message. *)
Definition classify (message : str) : str * str * float :=
  match first_match keyword_sets message with
  | Some (c, conf) => (c, c, conf)
  | None => (u "default", u "generale", 0.7%float)
  end.

(** Every keyword of every category. *)
Definition known_keywords : list str :=
  concat (List.map (fun rule => rule.1.2) keyword_sets).

(** The keys the handler can look up in a language table. *)
Definition table_keys : list str :=
  [u "permesso_soggiorno"; u "lavoro"; u "casa"; u "sanita"; u "diritti"; u "default"].

(** The language the handler answers in. *)
Definition effective_language (responses : gmap str (gmap str str)) (requested : str)
  : str :=
  if has_key responses requested then requested else u "it".

(** [k] is one of the keywords of the category [c]. *)
Definition keyword_of (k c : str) : Prop :=
  exists ks conf, (c, ks, conf) ∈ keyword_sets /\ k ∈ ks.

(** [k] is a keyword of [c] and of no other category. *)
Definition unique_to (k c : str) : Prop :=
  keyword_of k c /\ forall c', keyword_of k c' -> c' = c.

(** A case mapping that leaves text that is not pure ASCII as it is.  It
    stands for the interpreter's in the closed examples, whose messages are
    all ASCII, so that it is never consulted there. *)
Definition ascii_only : str -> str := fun s => s.

(** The two entries of [sources]. *)
Definition static_sources : list (gmap str str) :=
  [ {[ u "title" := u "JOKKO KB"; u "url" := u "https://ym.vercel.app" ]};
    {[ u "title" := u "Ministero Interno"; u "url" := u "https://www.interno.gov.it" ]} ].

(** ** The rest of the module *)

(** A [ChatRequest] built from a request body: a field the body leaves out
    takes the default the class declares ([language: str = "it"],
    [user_id: Optional[str] = None]). *)
Definition ChatRequest_of_body (message : str) (language user_id : option str)
  : ChatRequest.t :=
  {| ChatRequest.message := message;
     ChatRequest.language := default (u "it") language;
     ChatRequest.user_id := user_id |}.

(** The items of [SAMPLE_RESPONSES["it"]] in the order the literal lists
    them, which is the order a dict keeps and [keys()] follows. *)
Definition SAMPLE_RESPONSES_it_items : list (str * str) :=
  [ (u "permesso_soggiorno", u "Per il permesso di soggiorno devi recarti in Questura con passaporto, foto tessera, marca da bollo da €16...");
    (u "lavoro", u "Per cercare lavoro in Italia puoi usare i centri per l'impiego, InfoJobs, agenzie interinali...");
    (u "casa", u "Per trovare casa puoi usare Immobiliare.it, Subito, Idealista o contattare associazioni locali...");
    (u "sanita", u "Il SSN garantisce cure gratuite: chiedi la tessera sanitaria alla ASL e scegli un medico di base...");
    (u "diritti", u "Hai diritto a: assistenza legale gratuita, protezione dalla discriminazione, accesso alla sanità e istruzione...");
    (u "default", u "Ciao! Sono JOKKO AI. Posso aiutarti su: permesso di soggiorno, lavoro, casa, sanità, diritti. Dimmi pure!") ].



(** The table key under which the text of a category is stored: the
    fallback category ["generale"] reads the entry ["default"]. *)
Definition table_key_of_category (c : str) : str :=
  if decide (c = u "generale") then u "default" else c.

(** A response table on which the handler's lookups cannot fail: it has the
    fallback language, and each of its language tables has the six keys. *)
Definition complete_table (responses : gmap str (gmap str str)) : Prop :=
  is_Some (responses !! u "it") /\
  forall L answers key,
    responses !! L = Some answers -> key ∈ table_keys -> is_Some (answers !! key).

(** * Properties *)

(** ** Substring test *)

Lemma startswith_spec (k s : str) :
  startswith s k = true <-> exists post, s = k ++ post.
Proof.
  revert s. induction k as [|a k IH]; intros s; simpl.
  - split; [intros _; by exists s | done].
  - destruct s as [|b s].
    + split; [done | intros [post H]; discriminate H].
    + rewrite andb_true_iff, N.eqb_eq, IH. split.
      * intros [-> [post ->]]. by exists post.
      * intros [post H]. injection H as -> ->. split; [done | by exists post].
Qed.

Lemma contains_spec (k s : str) :
  contains k s = true <-> exists pre post, s = pre ++ k ++ post.
Proof.
  induction s as [|b s IH]; simpl.
  - rewrite orb_false_r, startswith_spec. split.
    + intros [post H]. by exists [], post.
    + intros [pre [post H]]. symmetry in H.
      apply app_eq_nil in H as [-> H]. by exists post.
  - rewrite orb_true_iff, startswith_spec, IH. split.
    + intros [[post H] | [pre [post H]]].
      * by exists [], post.
      * exists (b :: pre), post. by rewrite H.
    + intros [[|c pre] [post H]].
      * left. by exists post.
      * right. injection H as _ ->. by exists pre, post.
Qed.

Lemma any_in_true (ks : list str) (s : str) :
  any_in ks s = true <-> exists k, k ∈ ks /\ contains k s = true.
Proof.
  unfold any_in. rewrite existsb_exists.
  split; intros [k [Hk H]]; exists k; by rewrite ?list_elem_of_In in *.
Qed.

Lemma any_in_false (ks : list str) (s : str) :
  any_in ks s = false <-> forall k, k ∈ ks -> contains k s = false.
Proof.
  rewrite <- not_true_iff_false, any_in_true. split.
  - intros H k Hk. apply not_true_iff_false. intros Hc. apply H. by exists k.
  - intros H [k [Hk Hc]]. rewrite (H k Hk) in Hc. discriminate Hc.
Qed.

(** ** Table lookups *)

Lemma getitem_Some {V} (d : gmap str V) (k : str) (v : V) :
  d !! k = Some v -> getitem d k = Return v.
Proof. unfold getitem. by intros ->. Qed.

Lemma getitem_None {V} (d : gmap str V) (k : str) :
  d !! k = None -> getitem d k = Raise (KeyError k).
Proof. unfold getitem. by intros ->. Qed.

(** ** Lower-casing *)

Lemma lower_isascii (ul : str -> str) (s : str) :
  isascii s = true -> lower ul s = List.map ascii_lower s.
Proof. unfold lower. by intros ->. Qed.

(** The keyword tests ignore case: in an ASCII message, a run of characters
    that lower-casing leaves alone is still there after [lower]. *)
Lemma contains_lower_isascii (ul : str -> str) (k m : str) :
  isascii m = true ->
  List.map ascii_lower k = k ->
  contains k m = true ->
  contains k (lower ul m) = true.
Proof.
  intros Hm Hk [pre [post ->]]%contains_spec.
  rewrite (lower_isascii ul _ Hm), !List.map_app, Hk.
  apply contains_spec. by eexists _, _.
Qed.

Example lower_mixed_case (ul : str -> str) :
  lower ul (u "Permesso di SOGGIORNO") = u "permesso di soggiorno".
Proof. by vm_compute. Qed.

(** ** Literals *)

Example u_ascii : u "it" = [105; 116].
Proof. reflexivity. Qed.

Example u_two_bytes : u "santé" = [115; 97; 110; 116; 233].
Proof. reflexivity. Qed.

Example u_three_bytes : u "€16" = [8364; 49; 54].
Proof. reflexivity. Qed.

(** ** The handler body and the classification table *)

Lemma first_match_None rules (message : str) :
  first_match rules message = None <->
  forall c ks conf, (c, ks, conf) ∈ rules -> any_in ks message = false.
Proof.
  induction rules as [|[[c ks] conf] rules IH]; simpl.
  - split; [intros _ c ks conf H; by apply elem_of_nil in H | done].
  - destruct (any_in ks message) eqn:E.
    + split; [done | intros H]. rewrite (H c ks conf) in E; [done | left].
    + rewrite IH. split.
      * intros H c' ks' conf' [[= -> -> ->] | Hin]%elem_of_cons; eauto.
      * intros H c' ks' conf' Hin. apply (H c' ks' conf'). by right.
Qed.

Lemma first_match_Some rules (message : str) c conf :
  first_match rules message = Some (c, conf) ->
  exists ks, (c, ks, conf) ∈ rules /\ any_in ks message = true.
Proof.
  induction rules as [|[[c' ks'] conf'] rules IH]; simpl; [done |].
  destruct (any_in ks' message) eqn:E.
  - intros [= -> ->]. exists ks'. split; [left | done].
  - intros [ks [Hin H]]%IH. exists ks. split; [by right | done].
Qed.

Lemma first_match_at rules (message : str) (i : nat) c ks conf :
  rules !! i = Some (c, ks, conf) ->
  any_in ks message = true ->
  (forall j c' ks' conf', (j < i)%nat -> rules !! j = Some (c', ks', conf') ->
                          any_in ks' message = false) ->
  first_match rules message = Some (c, conf).
Proof.
  revert i. induction rules as [|[[c0 ks0] conf0] rules IH]; intros i Hi Hks Hbefore.
  - by rewrite lookup_nil in Hi.
  - destruct i as [|i]; simpl in *.
    + injection Hi as -> -> ->. by rewrite Hks.
    + rewrite (Hbefore 0%nat c0 ks0 conf0); [| lia | done].
      apply (IH i); [done | done |].
      intros j c' ks' conf' Hj Hl. apply (Hbefore (S j) c' ks' conf'); [lia | done].
Qed.

(** The [if]/[elif] chain selects what the table read in order selects. *)
Lemma chat_try_classify (ul : str -> str) responses (chat_request : ChatRequest.t) :
  chat_try ul responses chat_request =
  (let language :=
     effective_language responses (ChatRequest.language chat_request) in
   answers ← getitem responses language;
   let '(key, category, confidence) :=
     classify (lower ul (ChatRequest.message chat_request)) in
   response ← getitem answers key;
   mret {| ChatResponse.response := response;
           ChatResponse.language := language;
           ChatResponse.sources := static_sources;
           ChatResponse.category := Some category;
           ChatResponse.confidence := confidence |}).
Proof.
  unfold chat_try, effective_language, classify, keyword_sets.
  cbn [first_match].
  destruct (getitem responses _) as [answers|e]; [| reflexivity].
  cbn [mbind outcome_bind].
  repeat (destruct (any_in _ _);
          [by destruct (getitem answers _) |]).
  by destruct (getitem answers _).
Qed.

(** ** The response table *)

Lemma SAMPLE_RESPONSES_languages (L : str) (answers : gmap str str) :
  SAMPLE_RESPONSES !! L = Some answers ->
  L = u "it" \/ L = u "en" \/ L = u "fr".
Proof.
  unfold SAMPLE_RESPONSES. intros H.
  apply lookup_insert_Some in H as [[<- _] | [_ H]]; [by left |].
  apply lookup_insert_Some in H as [[<- _] | [_ H]]; [by right; left |].
  apply lookup_singleton_Some in H as [<- _]. by right; right.
Qed.

Lemma has_key_SAMPLE_RESPONSES (L : str) :
  has_key SAMPLE_RESPONSES L = true <->
  L = u "it" \/ L = u "en" \/ L = u "fr".
Proof.
  unfold has_key. split.
  - destruct (SAMPLE_RESPONSES !! L) as [answers|] eqn:E; [| done].
    intros _. by apply SAMPLE_RESPONSES_languages in E.
  - by intros [-> | [-> | ->]]; vm_compute.
Qed.

(** Every language table has every key the handler looks up. *)
Lemma SAMPLE_RESPONSES_total (L key : str) (answers : gmap str str) :
  SAMPLE_RESPONSES !! L = Some answers ->
  key ∈ table_keys ->
  is_Some (answers !! key).
Proof.
  intros HL Hkey.
  assert (forallb
            (fun L' => from_option (fun a => forallb (has_key a) table_keys) false
                                   (SAMPLE_RESPONSES !! L'))
            [u "it"; u "en"; u "fr"] = true) as Hall by (by vm_compute).
  rewrite forallb_forall in Hall. specialize (Hall L).
  rewrite HL in Hall. cbn [from_option] in Hall.
  assert (In L [u "it"; u "en"; u "fr"]) as HIn.
  { destruct (SAMPLE_RESPONSES_languages L answers HL) as [-> | [-> | ->]];
      [left | right; left | right; right; left]; reflexivity. }
  apply Hall in HIn. rewrite forallb_forall in HIn.
  apply list_elem_of_In, HIn in Hkey. unfold has_key in Hkey.
  by destruct (answers !! key).
Qed.

Lemma effective_language_supported (L : str) :
  is_Some (SAMPLE_RESPONSES !! effective_language SAMPLE_RESPONSES L).
Proof.
  unfold effective_language, has_key.
  destruct (SAMPLE_RESPONSES !! L) as [answers|] eqn:E; [by rewrite E |].
  destruct (SAMPLE_RESPONSES !! u "it") eqn:Eit; [done |].
  by vm_compute in Eit.
Qed.

(** ** What the handler returns *)

Lemma elem_of_keyword_sets c ks conf :
  (c, ks, conf) ∈ keyword_sets ->
  (c = u "permesso_soggiorno" /\ conf = 0.9%float /\
   ks = [u "permesso"; u "soggiorno"; u "séjour"; u "permit"]) \/
  (c = u "lavoro" /\ conf = 0.85%float /\
   ks = [u "lavoro"; u "job"; u "work"; u "emploi"]) \/
  (c = u "casa" /\ conf = 0.85%float /\
   ks = [u "casa"; u "house"; u "logement"; u "rent"]) \/
  (c = u "sanita" /\ conf = 0.85%float /\
   ks = [u "salute"; u "health"; u "santé"; u "doctor"]) \/
  (c = u "diritti" /\ conf = 0.85%float /\
   ks = [u "diritti"; u "rights"; u "droits"; u "legal"]).
Proof.
  unfold keyword_sets. rewrite !elem_of_cons, elem_of_nil.
  intros [H | [H | [H | [H | [H | []]]]]]; injection H as -> -> ->; tauto.
Qed.

Lemma classify_key (message : str) : (classify message).1.1 ∈ table_keys.
Proof.
  unfold classify.
  destruct (first_match keyword_sets message) as [[c conf]|] eqn:E; simpl.
  - apply first_match_Some in E as [ks [Hin _]].
    apply elem_of_keyword_sets in Hin
      as [[-> _] | [[-> _] | [[-> _] | [[-> _] | [-> _]]]]];
      unfold table_keys; repeat constructor.
  - unfold table_keys; repeat constructor.
Qed.

(** With the table the module defines, the body of the [try] block returns:
    the text is the entry of the effective language's table under the key
    the classification selects. *)
Lemma chat_try_returns (ul : str -> str) (chat_request : ChatRequest.t) key category confidence :
  classify (lower ul (ChatRequest.message chat_request))
  = (key, category, confidence) ->
  exists answers response,
    SAMPLE_RESPONSES
      !! effective_language SAMPLE_RESPONSES (ChatRequest.language chat_request)
    = Some answers /\
    answers !! key = Some response /\
    chat_try ul SAMPLE_RESPONSES chat_request =
    Return {| ChatResponse.response := response;
              ChatResponse.language :=
                effective_language SAMPLE_RESPONSES
                                   (ChatRequest.language chat_request);
              ChatResponse.sources := static_sources;
              ChatResponse.category := Some category;
              ChatResponse.confidence := confidence |}.
Proof.
  intros Hc. rewrite chat_try_classify. cbv zeta.
  destruct (effective_language_supported (ChatRequest.language chat_request))
    as [answers Ha].
  pose proof (classify_key (lower ul (ChatRequest.message chat_request))) as Hk.
  rewrite Hc in Hk. simpl in Hk.
  destruct (SAMPLE_RESPONSES_total _ key answers Ha Hk) as [response Hr].
  exists answers, response. split; [done |]. split; [done |].
  unfold getitem. rewrite Ha. cbn [mbind outcome_bind].
  rewrite Hc, Hr. reflexivity.
Qed.

Lemma chat_returns (ul : str -> str) (chat_request : ChatRequest.t) key category confidence :
  classify (lower ul (ChatRequest.message chat_request))
  = (key, category, confidence) ->
  exists answers response,
    SAMPLE_RESPONSES
      !! effective_language SAMPLE_RESPONSES (ChatRequest.language chat_request)
    = Some answers /\
    answers !! key = Some response /\
    chat ul chat_request =
    Return {| ChatResponse.response := response;
              ChatResponse.language :=
                effective_language SAMPLE_RESPONSES
                                   (ChatRequest.language chat_request);
              ChatResponse.sources := static_sources;
              ChatResponse.category := Some category;
              ChatResponse.confidence := confidence |}.
Proof.
  intros Hc.
  destruct (chat_try_returns ul chat_request key category confidence Hc)
    as (answers & response & Ha & Hr & Hbody).
  exists answers, response. split; [done |]. split; [done |].
  unfold chat, chat_with. by rewrite Hbody.
Qed.

Lemma classify_first (ul : str -> str) (m : str) c ks conf k (i : nat) :
  keyword_sets !! i = Some (c, ks, conf) ->
  k ∈ ks ->
  contains k (lower ul m) = true ->
  (forall j c' ks' conf', (j < i)%nat ->
     keyword_sets !! j = Some (c', ks', conf') ->
     any_in ks' (lower ul m) = false) ->
  classify (lower ul m) = (c, c, conf).
Proof.
  intros Hi Hk Hc Hbefore. unfold classify.
  rewrite (first_match_at keyword_sets (lower ul m) i c ks conf); try done.
  apply any_in_true. by exists k.
Qed.

Lemma classify_default (message : str) :
  (forall k, k ∈ known_keywords -> contains k message = false) ->
  classify message = (u "default", u "generale", 0.7%float).
Proof.
  intros Hnone. unfold classify.
  assert (first_match keyword_sets message = None) as ->; [| done].
  apply first_match_None. intros c ks conf Hin.
  apply any_in_false. intros k Hk. apply Hnone.
  unfold known_keywords. apply list_elem_of_In, in_concat.
  exists ks. split; [| by apply list_elem_of_In].
  apply in_map_iff. exists (c, ks, conf). split; [done | by apply list_elem_of_In].
Qed.

(** ** The claims *)

(** No keyword belongs to two categories. *)
Lemma known_keywords_NoDup : NoDup known_keywords.
Proof. apply (bool_decide_unpack _). by vm_compute. Qed.

Lemma lavoro_unique_to_lavoro : unique_to (u "lavoro") (u "lavoro").
Proof.
  split.
  - exists [u "lavoro"; u "job"; u "work"; u "emploi"], 0.85%float.
    split; [unfold keyword_sets; repeat constructor | apply list_elem_of_here].
  - intros c' (ks & conf & Hin & Hk).
    apply elem_of_keyword_sets in Hin
      as [(_ & _ & ->) | [(-> & _) | [(_ & _ & ->) | [(_ & _ & ->) | (_ & _ & ->)]]]];
      [| done | | |];
      exfalso; revert Hk; apply (bool_decide_eq_false_1 _); by vm_compute.
Qed.

(** A language that is declared in [SUPPORTED_LANGUAGES] and has no table in
    [SAMPLE_RESPONSES]: it is answered in Italian. *)
Lemma declared_language_without_table (ul : str -> str) :
  is_Some (SUPPORTED_LANGUAGES !! u "wo") /\
  SAMPLE_RESPONSES !! u "wo" = None /\
  exists r,
    chat ul (ChatRequest.mk (u "lavoro") (u "wo") None) = Return r /\
    ChatResponse.language r = u "it".
Proof.
  split; [by eexists; vm_compute |].
  split; [by vm_compute |].
  eexists. split; by vm_compute.
Qed.

(** C1, as stated, fails: ["permesso lavoro"] contains ["lavoro"], a keyword
    of the category ["lavoro"] only, and the requested language ["it"] has a
    table; yet the category of the response is ["permesso_soggiorno"],
    since the residence-permit keywords are tested first. *)
Lemma C1_counterexample :
  has_key SAMPLE_RESPONSES (u "it") = true /\
  unique_to (u "lavoro") (u "lavoro") /\
  contains (u "lavoro") (u "permesso lavoro") = true /\
  (forall ul, lower ul (u "permesso lavoro") = u "permesso lavoro") /\
  (forall ul, exists r,
     chat ul (ChatRequest.mk (u "permesso lavoro") (u "it") None) = Return r /\
     ChatResponse.category r = Some (u "permesso_soggiorno") /\
     ChatResponse.category r <> Some (u "lavoro")).
Proof.
  split; [by vm_compute |].
  split; [exact lavoro_unique_to_lavoro |].
  split; [by vm_compute |].
  split; [intros ul; by vm_compute |].
  intros ul. eexists. split; [by vm_compute |].
  split; [by vm_compute | by vm_compute].
Qed.

(** C1 (amended).  For every language [L] that has a table in
    [SAMPLE_RESPONSES] and every category [C] with keywords, a request in
    language [L] whose lower-cased message contains a keyword of [C] and no
    keyword of a category tested before [C] is answered in [L], with
    category [C] and the text stored for [(L, C)]. *)
Theorem C1_first_matching_category (ul : str -> str) (m L : str) (uid : option str)
    (answers : gmap str str) (i : nat) (C k : str) (ks : list str) (conf : float) :
  SAMPLE_RESPONSES !! L = Some answers ->
  keyword_sets !! i = Some (C, ks, conf) ->
  k ∈ ks ->
  contains k (lower ul m) = true ->
  (forall j C' ks' conf' k', (j < i)%nat ->
     keyword_sets !! j = Some (C', ks', conf') ->
     k' ∈ ks' -> contains k' (lower ul m) = false) ->
  exists r,
    chat ul (ChatRequest.mk m L uid) = Return r /\
    ChatResponse.language r = L /\
    ChatResponse.category r = Some C /\
    answers !! C = Some (ChatResponse.response r).
Proof.
  intros HL Hi Hk Hc Hbefore.
  destruct (chat_returns ul (ChatRequest.mk m L uid) C C conf)
    as (answers' & response & Ha & Hr & Hchat).
  - apply (classify_first ul m C ks conf k i); [done | done | done |].
    intros j C' ks' conf' Hj Hl. apply any_in_false. intros k' Hk'.
    by apply (Hbefore j C' ks' conf' k').
  - simpl in Ha. unfold effective_language, has_key in Ha, Hchat.
    simpl in Hchat. rewrite HL in Ha, Hchat. rewrite HL in Ha.
    injection Ha as <-.
    eexists. split; [exact Hchat |]. by repeat split.
Qed.

(** A request in French that mentions a job. *)
Lemma C1_emploi_fr :
  exists answers r,
    SAMPLE_RESPONSES !! u "fr" = Some answers /\
    chat ascii_only (ChatRequest.mk (u "Je cherche un emploi") (u "fr") None)
    = Return r /\
    ChatResponse.language r = u "fr" /\
    ChatResponse.category r = Some (u "lavoro") /\
    answers !! u "lavoro" = Some (ChatResponse.response r) /\
    ChatResponse.response r =
    u "Pour trouver du travail : centres d'emploi, InfoJobs, agences intérimaires...".
Proof.
  destruct (SAMPLE_RESPONSES !! u "fr") as [answers|] eqn:HL;
    [| by vm_compute in HL].
  destruct (C1_first_matching_category ascii_only (u "Je cherche un emploi")
              (u "fr") None answers 1%nat (u "lavoro") (u "emploi")
              [u "lavoro"; u "job"; u "work"; u "emploi"] 0.85%float)
    as (r & Hchat & Hlang & Hcat & Htext).
  - exact HL.
  - reflexivity.
  - repeat constructor.
  - vm_compute. reflexivity.
  - intros j C' ks' conf' k' Hj Hl Hk'.
    destruct j as [|j]; [| lia].
    injection Hl as <- <- <-. revert Hk'.
    rewrite !elem_of_cons, elem_of_nil.
    intros [-> | [-> | [-> | [-> | []]]]]; vm_compute; reflexivity.
  - exists answers, r. repeat split; try done.
    assert (chat ascii_only
              (ChatRequest.mk (u "Je cherche un emploi") (u "fr") None)
            = Return
                {| ChatResponse.response :=
                     u "Pour trouver du travail : centres d'emploi, InfoJobs, agences intérimaires...";
                   ChatResponse.language := u "fr";
                   ChatResponse.sources := static_sources;
                   ChatResponse.category := Some (u "lavoro");
                   ChatResponse.confidence := 0.85%float |}) as Heval
      by (vm_compute; reflexivity).
    rewrite Hchat in Heval. by injection Heval as ->.
Defined.

(** C2. The keyword lists are tested in a fixed order and the first match
    wins: a message whose lower-cased text contains both a residence-permit
    keyword and a work keyword is answered with category
    ["permesso_soggiorno"] and confidence 0.9, whatever the language. *)
Theorem C2_permit_keyword_wins_over_work (ul : str -> str) (m L : str) (uid : option str)
    (k1 k2 : str) :
  k1 ∈ [u "permesso"; u "soggiorno"; u "séjour"; u "permit"] ->
  contains k1 (lower ul m) = true ->
  k2 ∈ [u "lavoro"; u "job"; u "work"; u "emploi"] ->
  contains k2 (lower ul m) = true ->
  exists r,
    chat ul (ChatRequest.mk m L uid) = Return r /\
    ChatResponse.category r = Some (u "permesso_soggiorno") /\
    ChatResponse.confidence r = 0.9%float.
Proof.
  intros Hk1 Hc1 _ _.
  destruct (chat_returns ul (ChatRequest.mk m L uid)
              (u "permesso_soggiorno") (u "permesso_soggiorno") 0.9%float)
    as (answers & response & _ & _ & Hchat).
  - eapply (classify_first ul m _ _ _ k1 0%nat); [reflexivity | done | done |].
    intros j c' ks' conf' Hj. lia.
  - eexists. split; [exact Hchat |]. by split.
Qed.

(** The message ["permesso lavoro"] with language ["en"]. *)
Lemma C2_permesso_lavoro_en :
  exists r,
    chat ascii_only (ChatRequest.mk (u "permesso lavoro") (u "en") None)
    = Return r /\
    ChatResponse.category r = Some (u "permesso_soggiorno") /\
    ChatResponse.confidence r = 0.9%float.
Proof.
  apply (C2_permit_keyword_wins_over_work ascii_only (u "permesso lavoro")
           (u "en") None (u "permesso") (u "lavoro")).
  - apply list_elem_of_here.
  - vm_compute. reflexivity.
  - apply list_elem_of_here.
  - vm_compute. reflexivity.
Defined.

(** C3. A request whose language has no table in [SAMPLE_RESPONSES] is
    answered as the same request in ["it"]: the [language] of the response
    is ["it"], and its category and text are those the classification
    selects in the Italian table. *)
Theorem C3_unsupported_language_falls_back_to_it (ul : str -> str) (m L : str)
    (uid : option str) :
  SAMPLE_RESPONSES !! L = None ->
  exists r it_answers key category confidence,
    chat ul (ChatRequest.mk m L uid) = Return r /\
    ChatResponse.language r = u "it" /\
    chat ul (ChatRequest.mk m (u "it") uid) = Return r /\
    classify (lower ul m) = (key, category, confidence) /\
    ChatResponse.category r = Some category /\
    SAMPLE_RESPONSES !! u "it" = Some it_answers /\
    it_answers !! key = Some (ChatResponse.response r).
Proof.
  intros HL.
  destruct (classify (lower ul m)) as [[key category] confidence] eqn:Hc.
  destruct (chat_returns ul (ChatRequest.mk m L uid) key category confidence Hc)
    as (answers & response & Ha & Hr & Hchat).
  destruct (chat_returns ul (ChatRequest.mk m (u "it") uid) key category
              confidence Hc)
    as (answers' & response' & Ha' & Hr' & Hchat').
  assert (effective_language SAMPLE_RESPONSES L = u "it") as HeL
    by (unfold effective_language, has_key; by rewrite HL).
  assert (effective_language SAMPLE_RESPONSES (u "it") = u "it") as Heit
    by (by vm_compute).
  cbn [ChatRequest.language] in *.
  rewrite HeL in Ha, Hchat. rewrite Heit in Ha', Hchat'.
  rewrite Ha in Ha'. injection Ha' as <-.
  rewrite Hr in Hr'. injection Hr' as <-.
  eexists _, answers, key, category, confidence.
  split; [exact Hchat |]. by repeat split.
Qed.

(** The message ["casa"] asked in ["de"]. *)
Lemma C3_casa_de :
  SAMPLE_RESPONSES !! u "de" = None /\
  exists r,
    chat ascii_only (ChatRequest.mk (u "casa") (u "de") None) = Return r /\
    chat ascii_only (ChatRequest.mk (u "casa") (u "it") None) = Return r /\
    ChatResponse.language r = u "it" /\
    ChatResponse.category r = Some (u "casa") /\
    ChatResponse.response r =
    u "Per trovare casa puoi usare Immobiliare.it, Subito, Idealista o contattare associazioni locali...".
Proof.
  assert (SAMPLE_RESPONSES !! u "de" = None) as HL by (vm_compute; reflexivity).
  split; [exact HL |].
  destruct (C3_unsupported_language_falls_back_to_it ascii_only (u "casa")
              (u "de") None HL)
    as (r & it_answers & key & category & confidence
        & Hchat & Hlang & Hit & Hc & Hcat & Ha & Hr).
  exists r. repeat split; try done.
  - rewrite Hcat. vm_compute in Hc. by injection Hc as _ <- _.
  - vm_compute in Hit. by injection Hit as <-.
Defined.

(** C4. A request whose lower-cased message contains none of the keywords
    of any category is answered with category ["generale"], confidence 0.7
    and the ["default"] entry of the effective language's table. *)
Theorem C4_no_keyword_is_generale (ul : str -> str) (m L : str)
    (uid : option str) :
  (forall k, k ∈ known_keywords -> contains k (lower ul m) = false) ->
  exists r answers,
    chat ul (ChatRequest.mk m L uid) = Return r /\
    ChatResponse.category r = Some (u "generale") /\
    ChatResponse.confidence r = 0.7%float /\
    ChatResponse.language r = effective_language SAMPLE_RESPONSES L /\
    SAMPLE_RESPONSES !! ChatResponse.language r = Some answers /\
    answers !! u "default" = Some (ChatResponse.response r).
Proof.
  intros Hnone. apply classify_default in Hnone.
  destruct (chat_returns ul (ChatRequest.mk m L uid) _ _ _ Hnone)
    as (answers & response & Ha & Hr & Hchat).
  eexists _, answers. split; [exact Hchat |]. by repeat split.
Qed.

(** The message ["hello there"] asked in ["en"]. *)
Lemma C4_hello_there_en :
  exists r,
    chat ascii_only (ChatRequest.mk (u "hello there") (u "en") None) = Return r /\
    ChatResponse.category r = Some (u "generale") /\
    ChatResponse.confidence r = 0.7%float /\
    ChatResponse.language r = u "en" /\
    ChatResponse.response r =
    u "Hello! I’m JOKKO AI. I can help with: residence permit, work, housing, healthcare, rights.".
Proof.
  destruct (C4_no_keyword_is_generale ascii_only (u "hello there") (u "en") None)
    as (r & answers & Hchat & Hcat & Hconf & Hlang & Ha & Hr).
  - intros k Hk. apply any_in_false with (ks := known_keywords); [| done].
    vm_compute. reflexivity.
  - exists r. repeat split; try done.
    vm_compute in Hchat. by injection Hchat as <-.
Defined.

(** What the body can raise: only a [KeyError], on ["it"] or on one of the
    fixed table keys; [str_of] is exact on these. *)
Lemma chat_try_raises (ul : str -> str) responses (chat_request : ChatRequest.t) e :
  chat_try ul responses chat_request = Raise e ->
  exists key, e = KeyError key /\ key ∈ u "it" :: table_keys.
Proof.
  rewrite chat_try_classify. cbv zeta.
  pose proof (classify_key (lower ul (ChatRequest.message chat_request))) as Hk.
  destruct (classify _) as [[key category] confidence]. simpl in Hk.
  assert (forall (answers : gmap str str) language,
             getitem answers key
             ≫= (fun response =>
                   mret {| ChatResponse.response := response;
                           ChatResponse.language := language;
                           ChatResponse.sources := static_sources;
                           ChatResponse.category := Some category;
                           ChatResponse.confidence := confidence |})
             = Raise e ->
             exists key, e = KeyError key /\ key ∈ u "it" :: table_keys) as Hrest.
  { intros answers language. unfold getitem.
    destruct (answers !! key); [done |].
    intros [= <-]. exists key. split; [done | by right]. }
  unfold effective_language, has_key.
  destruct (responses !! ChatRequest.language chat_request) as [answers|] eqn:E;
    cbv iota.
  - rewrite (getitem_Some _ _ _ E). apply Hrest.
  - destruct (responses !! u "it") as [answers|] eqn:Eit.
    + rewrite (getitem_Some _ _ _ Eit). apply Hrest.
    + rewrite (getitem_None _ _ Eit).
      intros [= <-]. exists (u "it"). split; [done | by left].
Qed.

(** C5. Whatever the response table holds when the handler runs, an
    exception raised by the body of the [try] block leaves the handler as an
    [HTTPException] with status 500 whose detail is ["Errore: "] followed by
    the text of the original exception.  (The handler's result type has no
    other exception.) *)
Theorem C5_failure_becomes_http_500 (ul : str -> str)
    (responses : gmap str (gmap str str)) (chat_request : ChatRequest.t)
    (e : Exception) :
  chat_try ul responses chat_request = Raise e ->
  chat_with ul responses chat_request =
  Raise {| status_code := 500; detail := u "Errore: " ++ str_of e |}.
Proof. intros He. unfold chat_with. by rewrite He. Qed.

(** A response table whose language tables have lost their ["default"]
    entry: a message without keyword fails the lookup, and the client sees
    ["Errore: 'default'"]. *)
Lemma C5_missing_default_entry :
  chat_try ascii_only (delete (u "default") <$> SAMPLE_RESPONSES)
           (ChatRequest.mk (u "hello there") (u "en") None)
  = Raise (KeyError (u "default")) /\
  chat_with ascii_only (delete (u "default") <$> SAMPLE_RESPONSES)
            (ChatRequest.mk (u "hello there") (u "en") None)
  = Raise {| status_code := 500; detail := u "Errore: 'default'" |}.
Proof.
  assert (chat_try ascii_only (delete (u "default") <$> SAMPLE_RESPONSES)
                   (ChatRequest.mk (u "hello there") (u "en") None)
          = Raise (KeyError (u "default"))) as He by (vm_compute; reflexivity).
  split; [exact He |].
  exact (C5_failure_becomes_http_500 ascii_only _ _ _ He).
Defined.

(** C6. Every chat request is answered, and the [sources] of the response
    are the two static entries, JOKKO KB then Ministero Interno. *)
Theorem C6_sources_are_static (ul : str -> str) (chat_request : ChatRequest.t) :
  exists r,
    chat ul chat_request = Return r /\
    ChatResponse.sources r =
    [ {[ u "title" := u "JOKKO KB"; u "url" := u "https://ym.vercel.app" ]};
      {[ u "title" := u "Ministero Interno";
         u "url" := u "https://www.interno.gov.it" ]} ].
Proof.
  destruct (classify (lower ul (ChatRequest.message chat_request)))
    as [[key category] confidence] eqn:Hc.
  destruct (chat_returns ul chat_request key category confidence Hc)
    as (answers & response & _ & _ & Hchat).
  eexists. split; [exact Hchat | reflexivity].
Qed.

(** C7. With the table the module defines the handler never fails: every
    language table has an entry for every key the handler can look up, the
    body of the [try] block returns a response for every request, and the
    handler returns that response and never the error. *)
Theorem C7_chat_never_fails (ul : str -> str) (chat_request : ChatRequest.t) :
  map_Forall
    (fun _ answers => Forall (fun key => is_Some (answers !! key)) table_keys)
    SAMPLE_RESPONSES /\
  (classify (lower ul (ChatRequest.message chat_request))).1.1 ∈ table_keys /\
  (exists r,
     chat_try ul SAMPLE_RESPONSES chat_request = Return r /\
     chat ul chat_request = Return r) /\
  (forall h, chat ul chat_request <> Raise h).
Proof.
  split.
  { intros L answers HL. apply Forall_forall. intros key Hkey.
    by apply (SAMPLE_RESPONSES_total L). }
  split; [apply classify_key |].
  destruct (classify (lower ul (ChatRequest.message chat_request)))
    as [[key category] confidence] eqn:Hc.
  destruct (chat_try_returns ul chat_request key category confidence Hc)
    as (answers & response & _ & _ & Hbody).
  assert (chat ul chat_request = chat_with ul SAMPLE_RESPONSES chat_request)
    as Hchat by reflexivity.
  unfold chat_with in Hchat. rewrite Hbody in Hchat. simpl in Hchat.
  split.
  - eexists. split; [exact Hbody | exact Hchat].
  - intros h. by rewrite Hchat.
Qed.

(** C8. [user_id] has no effect: two requests that agree on message and
    language, each with any [user_id] or none, get the same result in every
    field. *)
Theorem C8_user_id_is_ignored (ul : str -> str) (r1 r2 : ChatRequest.t) :
  ChatRequest.message r1 = ChatRequest.message r2 ->
  ChatRequest.language r1 = ChatRequest.language r2 ->
  chat ul r1 = chat ul r2.
Proof.
  destruct r1 as [m1 L1 uid1], r2 as [m2 L2 uid2]. simpl.
  intros -> ->. unfold chat, chat_with. f_equal.
Qed.

(** The same question with and without a [user_id]. *)
Lemma C8_with_and_without_user_id :
  chat ascii_only (ChatRequest.mk (u "Cerco lavoro") (u "it") None) =
  chat ascii_only (ChatRequest.mk (u "Cerco lavoro") (u "it") (Some (u "u42"))).
Proof.
  apply (C8_user_id_is_ignored ascii_only
           (ChatRequest.mk (u "Cerco lavoro") (u "it") None)
           (ChatRequest.mk (u "Cerco lavoro") (u "it") (Some (u "u42"))));
    reflexivity.
Defined.

(** The category and confidence the classification can produce. *)
Lemma classify_cases (message : str) key category confidence :
  classify message = (key, category, confidence) ->
  (category, confidence) ∈
    [ (u "permesso_soggiorno", 0.9%float); (u "lavoro", 0.85%float);
      (u "casa", 0.85%float); (u "sanita", 0.85%float);
      (u "diritti", 0.85%float); (u "generale", 0.7%float) ].
Proof.
  unfold classify.
  destruct (first_match keyword_sets message) as [[c conf]|] eqn:E.
  - intros [= _ <- <-].
    apply first_match_Some in E as [ks [Hin _]].
    apply elem_of_keyword_sets in Hin
      as [(-> & -> & _) | [(-> & -> & _) | [(-> & -> & _)
          | [(-> & -> & _) | (-> & -> & _)]]]];
      repeat constructor.
  - intros [= _ <- <-]. repeat constructor.
Qed.

(** C9. A response of the chat handler has as [language] one of the three
    keys of the response table, as [category] one of the six labels, and as
    [confidence] 0.9 for ["permesso_soggiorno"], 0.7 for ["generale"], and
    0.85 for the others. *)
Theorem C9_response_invariant (ul : str -> str) (chat_request : ChatRequest.t)
    (r : ChatResponse.t) :
  chat ul chat_request = Return r ->
  ChatResponse.language r ∈ [u "it"; u "en"; u "fr"] /\
  is_Some (SAMPLE_RESPONSES !! ChatResponse.language r) /\
  exists c,
    ChatResponse.category r = Some c /\
    c ∈ [ u "permesso_soggiorno"; u "lavoro"; u "casa"; u "sanita";
          u "diritti"; u "generale" ] /\
    ChatResponse.confidence r =
    if decide (c = u "permesso_soggiorno") then 0.9%float
    else if decide (c = u "generale") then 0.7%float
    else 0.85%float.
Proof.
  destruct (classify (lower ul (ChatRequest.message chat_request)))
    as [[key category] confidence] eqn:Hc.
  destruct (chat_returns ul chat_request key category confidence Hc)
    as (answers & response & Ha & _ & Hchat).
  rewrite Hchat. intros [= <-]. cbn [ChatResponse.language
    ChatResponse.category ChatResponse.confidence].
  split.
  { apply SAMPLE_RESPONSES_languages in Ha as [-> | [-> | ->]];
      repeat constructor. }
  split; [by rewrite Ha |].
  exists category. split; [done |].
  apply classify_cases in Hc.
  rewrite !elem_of_cons, elem_of_nil in Hc.
  destruct Hc as [H | [H | [H | [H | [H | [H | []]]]]]]; injection H as -> ->;
    (split; [repeat constructor | by vm_compute]).
Qed.

(** A request about housing, in English. *)
Lemma C9_house_en :
  exists r,
    chat ascii_only
         (ChatRequest.mk (u "Where can I RENT a house?") (u "en") (Some (u "u42")))
    = Return r /\
    ChatResponse.language r = u "en" /\
    ChatResponse.category r = Some (u "casa") /\
    ChatResponse.confidence r = 0.85%float.
Proof.
  eexists. split; [vm_compute; reflexivity |].
  destruct (C9_response_invariant ascii_only
              (ChatRequest.mk (u "Where can I RENT a house?") (u "en")
                              (Some (u "u42"))) _ ltac:(vm_compute; reflexivity))
    as (_ & _ & c & Hcat & _ & Hconf).
  vm_compute in Hcat. injection Hcat as <-.
  split; [by vm_compute |]. split; [by vm_compute |].
  rewrite Hconf. by vm_compute.
Defined.

(** ** The health endpoint *)

Lemma serve_all_globals (ul : str -> str) (g : Globals.t) (rqs : list Request) :
  serve_all ul g rqs = g.
Proof.
  revert g. induction rqs as [|rq rqs IH]; intros g; simpl; [done |].
  rewrite IH. by destruct rq.
Qed.

(** C10. After any sequence of earlier requests the health endpoint
    replies with the same payload: status ["ok"] and, under ["languages"],
    the whole table [SUPPORTED_LANGUAGES], which has eleven entries. *)
Theorem C10_health_is_constant (ul : str -> str) (earlier : list Request) :
  (serve ul (serve_all ul module_globals earlier) GET_health).2 = Health health /\
  health !! u "status" = Some (VStr (u "ok")) /\
  health !! u "languages" = Some (VDict SUPPORTED_LANGUAGES) /\
  size SUPPORTED_LANGUAGES = 11%nat /\
  dom SUPPORTED_LANGUAGES =
  list_to_set [ u "it"; u "fr"; u "en"; u "wo"; u "bm"; u "ha"; u "am"; u "ti";
                u "lg"; u "ff"; u "so" ].
Proof.
  split; [by rewrite serve_all_globals |].
  split; [by vm_compute |].
  split.
  { unfold health, health_with.
    rewrite lookup_insert_ne by (by vm_compute).
    rewrite lookup_insert_ne by (by vm_compute).
    by rewrite lookup_singleton_eq. }
  split; [by vm_compute |].
  apply (bool_decide_unpack _). by vm_compute.
Qed.

(** * Further properties of the handlers *)

(** ** The message *)

(** The handler reads the message through [lower] only. *)
Lemma chat_with_lower (ul : str -> str) responses (m1 m2 L : str)
    (uid1 uid2 : option str) :
  lower ul m1 = lower ul m2 ->
  chat_with ul responses (ChatRequest.mk m1 L uid1)
  = chat_with ul responses (ChatRequest.mk m2 L uid2).
Proof.
  intros H. unfold chat_with, chat_try.
  cbn [ChatRequest.message ChatRequest.language]. by rewrite H.
Qed.

(** X1. The classification ignores the case of ASCII messages: two ASCII
    messages that differ only in the case of their letters get the same
    result, in every language. *)
Theorem chat_ignores_ascii_case (ul : str -> str) (m1 m2 L : str)
    (uid : option str) :
  isascii m1 = true ->
  isascii m2 = true ->
  List.map ascii_lower m1 = List.map ascii_lower m2 ->
  chat ul (ChatRequest.mk m1 L uid) = chat ul (ChatRequest.mk m2 L uid).
Proof.
  intros H1 H2 Heq. apply chat_with_lower.
  by rewrite (lower_isascii ul m1 H1), (lower_isascii ul m2 H2).
Qed.

(** ["PERMESSO di Soggiorno"] and ["permesso di soggiorno"]. *)
Lemma chat_ignores_ascii_case_permesso :
  chat ascii_only (ChatRequest.mk (u "PERMESSO di Soggiorno") (u "fr") None)
  = chat ascii_only (ChatRequest.mk (u "permesso di soggiorno") (u "fr") None).
Proof.
  apply (chat_ignores_ascii_case ascii_only (u "PERMESSO di Soggiorno")
           (u "permesso di soggiorno") (u "fr") None); reflexivity.
Defined.

Lemma contains_length (k s : str) :
  contains k s = true -> (length k <= length s)%nat.
Proof.
  intros [pre [post ->]]%contains_spec. rewrite !length_app. lia.
Qed.

Lemma known_keywords_length (k : str) :
  k ∈ known_keywords -> (3 <= length k)%nat.
Proof.
  assert (Forall (fun k => (3 <= length k)%nat) known_keywords) as H.
  { apply (bool_decide_unpack _). by vm_compute. }
  rewrite Forall_forall in H. apply H.
Qed.

(** X2. A message whose lower-cased text has fewer than three code points,
    the empty message among them, is too short for any keyword: it is
    answered with category ["generale"], confidence 0.7 and the ["default"]
    entry of the effective language. *)
Theorem chat_short_message_is_generale (ul : str -> str) (m L : str)
    (uid : option str) :
  (length (lower ul m) < 3)%nat ->
  exists r answers,
    chat ul (ChatRequest.mk m L uid) = Return r /\
    ChatResponse.category r = Some (u "generale") /\
    ChatResponse.confidence r = 0.7%float /\
    SAMPLE_RESPONSES !! ChatResponse.language r = Some answers /\
    answers !! u "default" = Some (ChatResponse.response r).
Proof.
  intros Hlen.
  destruct (chat_returns ul (ChatRequest.mk m L uid)
              (u "default") (u "generale") 0.7%float)
    as (answers & response & Ha & Hr & Hchat).
  - apply classify_default. intros k Hk.
    destruct (contains k (lower ul m)) eqn:Hc; [| done].
    apply contains_length in Hc. apply known_keywords_length in Hk.
    cbn [ChatRequest.message] in *. lia.
  - eexists _, answers. split; [exact Hchat |]. by repeat split.
Qed.

(** The empty message, asked in French. *)
Lemma chat_empty_message_fr :
  exists r,
    chat ascii_only (ChatRequest.mk [] (u "fr") None) = Return r /\
    ChatResponse.category r = Some (u "generale") /\
    ChatResponse.response r =
    u "Salut ! Je suis JOKKO AI. Je peux vous aider avec : séjour, travail, logement, santé, droits.".
Proof.
  destruct (chat_short_message_is_generale ascii_only [] (u "fr") None)
    as (r & answers & Hchat & Hcat & _ & _ & _).
  - vm_compute. lia.
  - exists r. repeat split; try done.
    vm_compute in Hchat. by injection Hchat as <-.
Defined.

(** ** The fields of a response fit together *)

Lemma classify_table_key (message : str) key category confidence :
  classify message = (key, category, confidence) ->
  key = table_key_of_category category.
Proof.
  unfold classify.
  destruct (first_match keyword_sets message) as [[c conf]|] eqn:E.
  - intros [= <- <- _].
    apply first_match_Some in E as [ks [Hin _]].
    apply elem_of_keyword_sets in Hin
      as [(-> & _) | [(-> & _) | [(-> & _) | [(-> & _) | (-> & _)]]]];
      by vm_compute.
  - intros [= <- <- _]. by vm_compute.
Qed.

(** X3. In every response the text is the entry that the table of the
    response's own [language] stores for the response's own [category]
    (under ["default"] for ["generale"]): the three fields never disagree. *)
Theorem chat_response_is_coherent (ul : str -> str) (chat_request : ChatRequest.t) :
  exists r answers c,
    chat ul chat_request = Return r /\
    SAMPLE_RESPONSES !! ChatResponse.language r = Some answers /\
    ChatResponse.category r = Some c /\
    answers !! table_key_of_category c = Some (ChatResponse.response r).
Proof.
  destruct (classify (lower ul (ChatRequest.message chat_request)))
    as [[key category] confidence] eqn:Hc.
  destruct (chat_returns ul chat_request key category confidence Hc)
    as (answers & response & Ha & Hr & Hchat).
  apply classify_table_key in Hc as ->.
  eexists _, answers, category. split; [exact Hchat |]. by repeat split.
Qed.

(** ** Failures, over any response table *)

(** X4. Whatever the response table holds, a failure of the handler is an
    [HTTPException] with status 500 whose detail is ["Errore: "] followed by
    the quoted name of ["it"] or of one of the six fixed table keys: no text
    of the request, not even an unknown language code, reaches the error. *)
Theorem chat_error_names_a_fixed_key (ul : str -> str)
    (responses : gmap str (gmap str str)) (chat_request : ChatRequest.t)
    (h : HTTPException) :
  chat_with ul responses chat_request = Raise h ->
  status_code h = 500 /\
  exists key,
    key ∈ u "it" :: table_keys /\
    detail h = u "Errore: " ++ u "'" ++ key ++ u "'".
Proof.
  unfold chat_with, except_Exception.
  destruct (chat_try ul responses chat_request) as [r|e] eqn:He; [done |].
  intros [= <-]. split; [done |].
  apply chat_try_raises in He as (key & -> & Hkey). by exists key.
Qed.

(** An empty response table and a language code that is not a language. *)
Lemma chat_error_on_empty_table :
  chat_with ascii_only ∅ (ChatRequest.mk (u "casa") (u "<b>xx</b>") None)
  = Raise {| status_code := 500; detail := u "Errore: 'it'" |} /\
  exists key,
    key ∈ u "it" :: table_keys /\
    u "Errore: 'it'" = u "Errore: " ++ u "'" ++ key ++ u "'".
Proof.
  assert (chat_with ascii_only ∅
            (ChatRequest.mk (u "casa") (u "<b>xx</b>") None)
          = Raise {| status_code := 500; detail := u "Errore: 'it'" |}) as He
    by (vm_compute; reflexivity).
  split; [exact He |].
  exact (proj2 (chat_error_names_a_fixed_key ascii_only ∅ _ _ He)).
Defined.

(** X5. When the table of the effective language has no entry under the
    key the classification selects, the handler fails with status 500 and
    the detail names that key. *)
Theorem chat_missing_entry_is_http_500 (ul : str -> str)
    (responses : gmap str (gmap str str)) (chat_request : ChatRequest.t)
    (answers : gmap str str) (key category : str) (confidence : float) :
  responses !! effective_language responses (ChatRequest.language chat_request)
  = Some answers ->
  classify (lower ul (ChatRequest.message chat_request))
  = (key, category, confidence) ->
  answers !! key = None ->
  chat_with ul responses chat_request =
  Raise {| status_code := 500;
           detail := u "Errore: " ++ u "'" ++ key ++ u "'" |}.
Proof.
  intros Ha Hc Hk. unfold chat_with. rewrite chat_try_classify. cbv zeta.
  rewrite (getitem_Some _ _ _ Ha). cbn [mbind outcome_bind].
  rewrite Hc, (getitem_None _ _ Hk). reflexivity.
Qed.

(** The English table without its ["lavoro"] entry, asked about a job. *)
Lemma chat_missing_lavoro_entry :
  chat_with ascii_only
            (<[u "en" := {[ u "default" := u "Hello!" ]}]> SAMPLE_RESPONSES)
            (ChatRequest.mk (u "I need a JOB") (u "en") None)
  = Raise {| status_code := 500; detail := u "Errore: 'lavoro'" |}.
Proof.
  apply (chat_missing_entry_is_http_500 ascii_only
           (<[u "en" := {[ u "default" := u "Hello!" ]}]> SAMPLE_RESPONSES)
           (ChatRequest.mk (u "I need a JOB") (u "en") None)
           {[ u "default" := u "Hello!" ]} (u "lavoro") (u "lavoro") 0.85%float).
  - vm_compute. reflexivity.
  - vm_compute. reflexivity.
  - vm_compute. reflexivity.
Defined.

(** X6. On any response table that has the fallback language ["it"] and
    whose language tables all have the six keys, the handler answers every
    request, in the requested language when it has a table and in ["it"]
    otherwise; so a language table added with all its keys is served at
    once. *)
Theorem chat_total_on_complete_table (ul : str -> str)
    (responses : gmap str (gmap str str)) (chat_request : ChatRequest.t) :
  complete_table responses ->
  exists r answers,
    chat_with ul responses chat_request = Return r /\
    ChatResponse.language r
    = effective_language responses (ChatRequest.language chat_request) /\
    responses !! ChatResponse.language r = Some answers /\
    ChatResponse.response r ∈ (map_to_list answers).*2.
Proof.
  intros [[it_answers Hit] Hkeys].
  assert (is_Some (responses !! effective_language responses
                               (ChatRequest.language chat_request)))
    as [answers Ha].
  { unfold effective_language, has_key.
    destruct (responses !! ChatRequest.language chat_request) eqn:E;
      [by rewrite E | by rewrite Hit]. }
  pose proof (classify_key (lower ul (ChatRequest.message chat_request))) as Hk.
  destruct (classify (lower ul (ChatRequest.message chat_request)))
    as [[key category] confidence] eqn:Hc.
  cbn [fst] in Hk.
  destruct (Hkeys _ answers key Ha Hk) as [response Hr].
  eexists _, answers. split.
  - unfold chat_with. rewrite chat_try_classify. cbv zeta.
    rewrite (getitem_Some _ _ _ Ha). cbn [mbind outcome_bind].
    rewrite Hc, (getitem_Some _ _ _ Hr). reflexivity.
  - cbn [ChatResponse.language ChatResponse.response].
    split; [done |]. split; [done |].
    apply list_elem_of_fmap. exists (key, response).
    split; [done | by apply elem_of_map_to_list].
Qed.

(** A Wolof table added beside the three of the module. *)
Lemma chat_serves_added_language :
  exists r,
    chat_with ascii_only
      (<[u "wo" := {[ u "permesso_soggiorno" := u "wo-1"; u "lavoro" := u "wo-2";
                      u "casa" := u "wo-3"; u "sanita" := u "wo-4";
                      u "diritti" := u "wo-5"; u "default" := u "wo-6" ]}]>
         SAMPLE_RESPONSES)
      (ChatRequest.mk (u "house") (u "wo") None) = Return r /\
    ChatResponse.language r = u "wo" /\
    ChatResponse.response r = u "wo-3".
Proof.
  destruct (chat_total_on_complete_table ascii_only
      (<[u "wo" := {[ u "permesso_soggiorno" := u "wo-1"; u "lavoro" := u "wo-2";
                      u "casa" := u "wo-3"; u "sanita" := u "wo-4";
                      u "diritti" := u "wo-5"; u "default" := u "wo-6" ]}]>
         SAMPLE_RESPONSES)
      (ChatRequest.mk (u "house") (u "wo") None))
    as (r & answers & Hchat & Hlang & _ & _).
  - split.
    + rewrite lookup_insert_ne by (by vm_compute).
      apply (effective_language_supported (u "it")).
    + intros L answers key [[_ <-] | [_ HL]]%lookup_insert_Some Hkey.
      * assert (Forall (fun k : str =>
                  is_Some (({[ u "permesso_soggiorno" := u "wo-1";
                               u "lavoro" := u "wo-2"; u "casa" := u "wo-3";
                               u "sanita" := u "wo-4"; u "diritti" := u "wo-5";
                               u "default" := u "wo-6" ]} : gmap str str) !! k))
                  table_keys) as Hall
          by (apply (bool_decide_unpack _); by vm_compute).
        rewrite Forall_forall in Hall. by apply Hall.
      * by apply (SAMPLE_RESPONSES_total L).
  - exists r. split; [exact Hchat |].
    vm_compute in Hchat. by injection Hchat as <-.
Defined.

(** ** Keywords *)

(** X7. No keyword is shadowed: a message that is one keyword alone, left
    as it is by [lower], is classified in the keyword's own category with
    that category's confidence.  So each of the five keyword branches can be
    reached, through each of its keywords. *)
Theorem chat_keyword_alone_hits_its_category (ul : str -> str) (i : nat)
    (C k L : str) (ks : list str) (conf : float) (uid : option str) :
  keyword_sets !! i = Some (C, ks, conf) ->
  k ∈ ks ->
  lower ul k = k ->
  exists r,
    chat ul (ChatRequest.mk k L uid) = Return r /\
    ChatResponse.category r = Some C /\
    ChatResponse.confidence r = conf.
Proof.
  intros Hi Hk Hl.
  destruct (chat_returns ul (ChatRequest.mk k L uid) C C conf)
    as (answers & response & _ & _ & Hchat).
  - cbn [ChatRequest.message]. rewrite Hl. clear Hl.
    do 5 (destruct i as [|i];
          [ injection Hi as <- <- <-;
            rewrite !elem_of_cons, elem_of_nil in Hk;
            destruct Hk as [-> | [-> | [-> | [-> | []]]]]; by vm_compute |]).
    discriminate Hi.
  - eexists. split; [exact Hchat |]. by split.
Qed.

(** The keyword ["rent"], sent alone. *)
Lemma chat_rent_alone :
  exists r,
    chat ascii_only (ChatRequest.mk (u "rent") (u "en") None) = Return r /\
    ChatResponse.category r = Some (u "casa") /\
    ChatResponse.confidence r = 0.85%float.
Proof.
  apply (chat_keyword_alone_hits_its_category ascii_only 2%nat (u "casa")
           (u "rent") (u "en") [u "casa"; u "house"; u "logement"; u "rent"]
           0.85%float None).
  - reflexivity.
  - repeat constructor.
  - vm_compute. reflexivity.
Defined.

(** ** Languages *)

(** The handler reads the requested language through the effective
    language only. *)
Lemma chat_with_effective_language (ul : str -> str) responses (m L1 L2 : str)
    (uid1 uid2 : option str) :
  effective_language responses L1 = effective_language responses L2 ->
  chat_with ul responses (ChatRequest.mk m L1 uid1)
  = chat_with ul responses (ChatRequest.mk m L2 uid2).
Proof.
  unfold effective_language. intros H. unfold chat_with, chat_try.
  cbn [ChatRequest.message ChatRequest.language]. by rewrite H.
Qed.

(** X8. The language of every chat response is declared in
    [SUPPORTED_LANGUAGES]: the map that the health endpoint publishes has a
    display name for it. *)
Theorem chat_language_has_display_name (ul : str -> str)
    (chat_request : ChatRequest.t) :
  exists r name,
    chat ul chat_request = Return r /\
    SUPPORTED_LANGUAGES !! ChatResponse.language r = Some name /\
    health !! u "languages" = Some (VDict SUPPORTED_LANGUAGES).
Proof.
  destruct (classify (lower ul (ChatRequest.message chat_request)))
    as [[key category] confidence] eqn:Hc.
  destruct (chat_returns ul chat_request key category confidence Hc)
    as (answers & response & Ha & _ & Hchat).
  assert (is_Some (SUPPORTED_LANGUAGES
                     !! effective_language SAMPLE_RESPONSES
                          (ChatRequest.language chat_request)))
    as [name Hname].
  { apply SAMPLE_RESPONSES_languages in Ha as [-> | [-> | ->]];
      by eexists; vm_compute. }
  eexists _, name. split; [exact Hchat |]. split; [exact Hname |].
  unfold health, health_with.
  rewrite lookup_insert_ne by (by vm_compute).
  rewrite lookup_insert_ne by (by vm_compute).
  by rewrite lookup_singleton_eq.
Qed.

(** X9. The default of [ChatRequest.language] is the language the handler
    falls back to: a request body without [language] gets the same result
    as one that names any language without a table. *)
Theorem chat_omitted_language_is_fallback (ul : str -> str) (m L : str)
    (uid : option str) :
  SAMPLE_RESPONSES !! L = None ->
  chat ul (ChatRequest_of_body m None uid)
  = chat ul (ChatRequest_of_body m (Some L) uid).
Proof.
  intros HL. unfold chat, ChatRequest_of_body. cbn [default].
  apply chat_with_effective_language.
  unfold effective_language, has_key, id. rewrite HL. by vm_compute.
Qed.

(** A body with the message only, and the same message asked in ["de"]. *)
Lemma chat_omitted_language_and_de :
  chat ascii_only (ChatRequest_of_body (u "casa") None None)
  = chat ascii_only (ChatRequest_of_body (u "casa") (Some (u "de")) None).
Proof.
  apply (chat_omitted_language_is_fallback ascii_only (u "casa") (u "de") None).
  vm_compute. reflexivity.
Defined.

(** ** The welcome endpoint *)

(** The item list of the Italian table is the table the handlers read. *)
Lemma SAMPLE_RESPONSES_it_items_spec :
  SAMPLE_RESPONSES !! u "it" = Some (list_to_map SAMPLE_RESPONSES_it_items) /\
  NoDup (SAMPLE_RESPONSES_it_items.*1).
Proof.
  split; [by vm_compute |]. apply (bool_decide_unpack _). by vm_compute.
Qed.

